(** * Framebuffer: attachment bookkeeping and dirty counters

    A shallow embedding of [packages/core/src/framebuffer/Framebuffer.js].

    The class is a mutable JavaScript object whose methods call into three
    collaborators ([BaseTexture], [DepthResource], [Runner]).  The embedding
    threads a [World] (the object's fields, the log of collaborator calls,
    the object allocator) through a small state-and-exception monad: a
    JavaScript exception aborts the method but keeps every write made
    before it. *)

From Stdlib Require Import ZArith QArith Qround.
From stdpp Require Import base option list gmap strings.

Local Open Scope Z_scope.
Local Open Scope nat_scope.

(** ** JavaScript numbers

    A binary64 value is NaN, an infinity, one of the two zeros, or a non-zero
    rational.  [Fin q] with [q == 0] is the positive zero; [NegZero] is kept
    apart because [Math.ceil] produces it for every argument in (-1, 0).
    [Fin] ranges over all rationals, a superset of the finite doubles on
    which [Math.ceil], [||] and [===] are computed without rounding. *)

Inductive number : Type :=
| NaN
| Infinity (negative : bool)
| NegZero
| Fin (q : Q).

(** The arguments a caller can hand to the numeric parameters: a number, or
    nothing at all ([undefined]). *)
Inductive jsval : Type :=
| Undefined
| Num (n : number).

Definition ToNumber (v : jsval) : number :=
  match v with
  | Undefined => NaN
  | Num n => n
  end.

Definition number_truthy (n : number) : bool :=
  match n with
  | NaN => false
  | Infinity _ => true
  | NegZero => false
  | Fin q => negb (Qeq_bool q 0)
  end.

Definition ToBoolean (v : jsval) : bool :=
  match v with
  | Undefined => false
  | Num n => number_truthy n
  end.

(** [a || b] on the values above. *)
Definition js_or (a b : jsval) : jsval :=
  if ToBoolean a then a else b.

(** [Math.ceil]. *)
Definition Math_ceil (n : number) : number :=
  match n with
  | NaN => NaN
  | Infinity s => Infinity s
  | NegZero => NegZero
  | Fin q =>
      let z := Qceiling q in
      if ((z =? 0)%Z && (Qnum q <? 0)%Z)%bool then NegZero
      else Fin (inject_Z z)
  end.

(** [a === b] on numbers: NaN equals nothing, the two zeros are equal. *)
Definition strict_eq (a b : number) : bool :=
  match a, b with
  | NaN, _ | _, NaN => false
  | Infinity s, Infinity s' => Bool.eqb s s'
  | NegZero, NegZero => true
  | NegZero, Fin q | Fin q, NegZero => Qeq_bool q 0
  | Fin p, Fin q => Qeq_bool p q
  | _, _ => false
  end.

Definition hundred : jsval := Num (Fin 100).

(** ** Collaborators *)

(** Modelled from the spec: the constants of [@pixi/constants] that the class
    names ([SCALE_MODES.NEAREST], [FORMATS.DEPTH_COMPONENT],
    [TYPES.UNSIGNED_SHORT]) are distinct tags; their numeric encoding is
    out of scope. *)
Inductive SCALE_MODES := NEAREST | LINEAR.
Inductive FORMATS := RGBA | DEPTH_COMPONENT.
Inductive TYPES := UNSIGNED_BYTE | UNSIGNED_SHORT.

(** The option bag passed to [new BaseTexture(resource, options)]; a key the
    caller leaves out is [None]. *)
Record TextureOptions := mkOptions {
  opt_scaleMode : option SCALE_MODES;
  opt_resolution : number;
  opt_mipmap : option bool;
  opt_width : number;
  opt_height : number;
  opt_format : option FORMATS;
  opt_type : option TYPES;
}.

(** A [DepthResource] built by [new DepthResource(null, { width, height })]. *)
Record DepthResource := mkDepthResource {
  dr_width : number;
  dr_height : number;
}.

(** Modelled from the spec: [BaseTexture] is not part of the sources at hand.
    A surface is an object (identified by [tex_id]) exposing [resolution];
    its [setSize] and [destroy] only touch its own backing store, so the
    class under study observes them as calls. *)
Record Texture := mkTexture {
  tex_id : nat;
  resolution : number;
}.

(** Modelled from the spec: [Runner] of [@pixi/runner], built from a name and
    an argument count and triggered with [run]. *)
Record Runner := mkRunner {
  runner_name : string;
  runner_argsLength : nat;
}.

(** Calls that leave the class. *)
Inductive call : Type :=
| NewBaseTexture (t : Texture) (resource : option DepthResource)
                 (options : TextureOptions)
| SetSize (t : Texture) (w h : number)
| Destroy (t : Texture)
| Run (r : Runner) (contextLost : bool).

(** ** JavaScript arrays with holes

    [colorTextures] is a plain array written by index.  A slot is [Some t]
    or a hole ([None]); reading a hole or past the end yields [undefined]. *)
Abbreviation jsarray A := (list (option A)).

Definition array_get {A} (a : jsarray A) (i : nat) : option A :=
  mjoin (a !! i).

(** [a[i] = v]: in range it overwrites, out of range it grows the array to
    length [i + 1] and leaves holes in between. *)
Definition array_set {A} (i : nat) (v : A) (a : jsarray A) : jsarray A :=
  <[i := Some v]> (a ++ replicate (S i - length a) None).

(** The slots read before the first hole is met, in order. *)
Fixpoint present_prefix {A} (a : jsarray A) : list A :=
  match a with
  | Some x :: rest => x :: present_prefix rest
  | _ => []
  end.

Fixpoint has_hole {A} (a : jsarray A) : bool :=
  match a with
  | [] => false
  | None :: _ => true
  | Some _ :: rest => has_hole rest
  end.

(** ** The object *)

Record Framebuffer := mkFramebuffer {
  width : number;
  height : number;
  stencil : bool;
  depth : bool;
  dirtyId : N;
  dirtyFormat : N;
  dirtySize : N;
  depthTexture : option Texture;
  colorTextures : jsarray Texture;
  glFramebuffers : gmap nat nat;     (* context id to native handle *)
  disposeRunner : Runner;
}.

Definition set_width (v : number) (f : Framebuffer) : Framebuffer :=
  mkFramebuffer v (height f) (stencil f) (depth f) (dirtyId f) (dirtyFormat f)
    (dirtySize f) (depthTexture f) (colorTextures f) (glFramebuffers f)
    (disposeRunner f).

Definition set_height (v : number) (f : Framebuffer) : Framebuffer :=
  mkFramebuffer (width f) v (stencil f) (depth f) (dirtyId f) (dirtyFormat f)
    (dirtySize f) (depthTexture f) (colorTextures f) (glFramebuffers f)
    (disposeRunner f).

Definition set_stencil (v : bool) (f : Framebuffer) : Framebuffer :=
  mkFramebuffer (width f) (height f) v (depth f) (dirtyId f) (dirtyFormat f)
    (dirtySize f) (depthTexture f) (colorTextures f) (glFramebuffers f)
    (disposeRunner f).

Definition set_depth (v : bool) (f : Framebuffer) : Framebuffer :=
  mkFramebuffer (width f) (height f) (stencil f) v (dirtyId f) (dirtyFormat f)
    (dirtySize f) (depthTexture f) (colorTextures f) (glFramebuffers f)
    (disposeRunner f).

Definition set_dirtyId (v : N) (f : Framebuffer) : Framebuffer :=
  mkFramebuffer (width f) (height f) (stencil f) (depth f) v (dirtyFormat f)
    (dirtySize f) (depthTexture f) (colorTextures f) (glFramebuffers f)
    (disposeRunner f).

Definition set_dirtyFormat (v : N) (f : Framebuffer) : Framebuffer :=
  mkFramebuffer (width f) (height f) (stencil f) (depth f) (dirtyId f) v
    (dirtySize f) (depthTexture f) (colorTextures f) (glFramebuffers f)
    (disposeRunner f).

Definition set_dirtySize (v : N) (f : Framebuffer) : Framebuffer :=
  mkFramebuffer (width f) (height f) (stencil f) (depth f) (dirtyId f)
    (dirtyFormat f) v (depthTexture f) (colorTextures f) (glFramebuffers f)
    (disposeRunner f).

Definition set_depthTexture (v : option Texture) (f : Framebuffer)
  : Framebuffer :=
  mkFramebuffer (width f) (height f) (stencil f) (depth f) (dirtyId f)
    (dirtyFormat f) (dirtySize f) v (colorTextures f) (glFramebuffers f)
    (disposeRunner f).

Definition set_colorTextures (v : jsarray Texture) (f : Framebuffer)
  : Framebuffer :=
  mkFramebuffer (width f) (height f) (stencil f) (depth f) (dirtyId f)
    (dirtyFormat f) (dirtySize f) (depthTexture f) v (glFramebuffers f)
    (disposeRunner f).

(** ** The world and the method monad *)

Record World := mkWorld {
  this : Framebuffer;
  calls : list call;          (* collaborator calls so far, oldest first *)
  allocated : nat;            (* surfaces created so far *)
}.

(** What a method can die of: the [TypeError] of a property read on
    [undefined], and the [Error] with which a buffer resource refuses its
    size. *)
Inductive JsError : Type :=
| CannotReadProperty (property : string)
| InvalidBufferSize.

Inductive completion (A : Type) : Type :=
| Normal (a : A)
| Throw (e : JsError).
Arguments Normal {A} a.
Arguments Throw {A} e.

Definition M (A : Type) : Type := World → World * completion A.

#[global] Instance M_ret : MRet M := λ A a w, (w, Normal a).

#[global] Instance M_bind : MBind M := λ A B k m w,
  match m w with
  | (w', Normal a) => k a w'
  | (w', Throw e) => (w', Throw e)
  end.

Definition throw {A} (e : JsError) : M A := λ w, (w, Throw e).

Definition get_this : M Framebuffer := λ w, (w, Normal (this w)).

Definition update (f : Framebuffer → Framebuffer) : M unit :=
  λ w, (mkWorld (f (this w)) (calls w) (allocated w), Normal tt).

Definition emit (c : call) : M unit :=
  λ w, (mkWorld (this w) (calls w ++ [c]) (allocated w), Normal tt).

(** [new BaseTexture(resource, options)]: a surface nobody else holds yet,
    carrying the resolution it was asked for. *)
Definition new_BaseTexture (resource : option DepthResource)
    (options : TextureOptions) : M Texture :=
  λ w,
    let t := mkTexture (allocated w) (opt_resolution options) in
    (mkWorld (this w) (calls w ++ [NewBaseTexture t resource options])
       (S (allocated w)),
     Normal t).

(** Modelled from the spec: [DepthResource] is not part of the sources at
    hand.  Section 7 leaves failures to the collaborators; this one is a
    buffer resource, whose constructor starts with
    [if (!width || !height) throw new Error(...)] and so refuses a width or
    height that is 0, -0 or NaN. *)
Definition new_DepthResource (width1 height1 : number) : M DepthResource :=
  if negb (number_truthy width1) || negb (number_truthy height1)
  then throw InvalidBufferSize
  else mret (mkDepthResource width1 height1).

(** What a method hands back: [this] (for chaining) or nothing. *)
Inductive returned : Type :=
| ReturnThis
| ReturnUndefined.

(** [x++] on a counter.  The counters start at 0 and move in steps of one;
    every natural below 2^53 is a binary64 value and the sum is exact there,
    so the counters are read as naturals. *)
Definition incr (n : N) : N := (n + 1)%N.

(** ** The class *)

(** [constructor(width, height)]. *)
Definition constructor (width0 height0 : jsval) : Framebuffer :=
  {| width := Math_ceil (ToNumber (js_or width0 hundred));
     height := Math_ceil (ToNumber (js_or height0 hundred));
     stencil := false;
     depth := false;
     dirtyId := 0%N;
     dirtyFormat := 0%N;
     dirtySize := 0%N;
     depthTexture := None;
     colorTextures := [];
     glFramebuffers := ∅;
     disposeRunner := mkRunner "disposeFramebuffer" 2 |}.

(** The world right after [new Framebuffer(width, height)], whatever the
    page did before ([n] surfaces already exist). *)
Definition new_Framebuffer (n : nat) (width0 height0 : jsval) : World :=
  mkWorld (constructor width0 height0) [] n.

(** [get colorTexture()]. *)
Definition colorTexture (f : Framebuffer) : option Texture :=
  array_get (colorTextures f) 0.

Definition default_color_options (f : Framebuffer) : TextureOptions :=
  {| opt_scaleMode := Some NEAREST;
     opt_resolution := Fin 1;
     opt_mipmap := Some false;
     opt_width := width f;
     opt_height := height f;
     opt_format := None;
     opt_type := None |}.

Definition default_depth_options (f : Framebuffer) : TextureOptions :=
  {| opt_scaleMode := Some NEAREST;
     opt_resolution := Fin 1;
     opt_mipmap := Some false;
     opt_width := width f;
     opt_height := height f;
     opt_format := Some DEPTH_COMPONENT;
     opt_type := Some UNSIGNED_SHORT |}.

(** [addColorTexture(index = 0, texture)].  An object is always truthy, so
    [texture || new BaseTexture(...)] builds the default exactly when no
    texture is passed. *)
Definition addColorTexture (index : option nat) (texture : option Texture)
  : M returned :=
  f ← get_this;
  t ← match texture with
      | Some t => mret t
      | None => new_BaseTexture None (default_color_options f)
      end;
  update (λ f, set_colorTextures
                 (array_set (default 0 index) t (colorTextures f)) f);;
  update (λ f, set_dirtyId (incr (dirtyId f)) f);;
  update (λ f, set_dirtyFormat (incr (dirtyFormat f)) f);;
  mret ReturnThis.

(** [addDepthTexture(texture)]. *)
Definition addDepthTexture (texture : option Texture) : M returned :=
  f ← get_this;
  t ← match texture with
      | Some t => mret t
      | None =>
          resource ← new_DepthResource (width f) (height f);
          new_BaseTexture (Some resource) (default_depth_options f)
      end;
  update (set_depthTexture (Some t));;
  update (λ f, set_dirtyId (incr (dirtyId f)) f);;
  update (λ f, set_dirtyFormat (incr (dirtyFormat f)) f);;
  mret ReturnThis.

(** [enableDepth()]. *)
Definition enableDepth : M returned :=
  update (set_depth true);;
  update (λ f, set_dirtyId (incr (dirtyId f)) f);;
  update (λ f, set_dirtyFormat (incr (dirtyFormat f)) f);;
  mret ReturnThis.

(** [enableStencil()]. *)
Definition enableStencil : M returned :=
  update (set_stencil true);;
  update (λ f, set_dirtyId (incr (dirtyId f)) f);;
  update (λ f, set_dirtyFormat (incr (dirtyFormat f)) f);;
  mret ReturnThis.

(** [for (let i = start; i < start + n; i++) body(i)]. *)
Fixpoint for_loop (n start : nat) (body : nat → M unit) : M unit :=
  match n with
  | O => mret tt
  | S n' => body start;; for_loop n' (S start) body
  end.

(** [dispose()]. *)
Definition dispose : M returned :=
  f ← get_this;
  emit (Run (disposeRunner f) false);;
  mret ReturnUndefined.

(** [destroyDepthTexture()]. *)
Definition destroyDepthTexture : M returned :=
  f ← get_this;
  match depthTexture f with
  | Some d =>
      emit (Destroy d);;
      update (set_depthTexture None);;
      update (λ f, set_dirtyId (incr (dirtyId f)) f);;
      update (λ f, set_dirtyFormat (incr (dirtyFormat f)) f);;
      mret ReturnUndefined
  | None => mret ReturnUndefined
  end.

Section Division.

(** The [/] of binary64, rounding included.  Nothing below depends on what
    it returns, only on what it is applied to. *)
Variable number_div : number → number → number.

(** The body of the loop in [resize]: [texture.resolution] on a hole is a
    property read on [undefined]. *)
Definition resize_body (width1 height1 : number) (i : nat) : M unit :=
  f ← get_this;
  match array_get (colorTextures f) i with
  | Some texture =>
      let resolution := resolution texture in
      emit (SetSize texture (number_div width1 resolution)
                            (number_div height1 resolution))
  | None => throw (CannotReadProperty "resolution")
  end.

(** [resize(width, height)]. *)
Definition resize (width0 height0 : jsval) : M returned :=
  let width1 := Math_ceil (ToNumber width0) in
  let height1 := Math_ceil (ToNumber height0) in
  f ← get_this;
  if strict_eq width1 (width f) && strict_eq height1 (height f)
  then mret ReturnUndefined
  else
    update (set_width width1);;
    update (set_height height1);;
    update (λ f, set_dirtyId (incr (dirtyId f)) f);;
    update (λ f, set_dirtySize (incr (dirtySize f)) f);;
    f ← get_this;
    for_loop (length (colorTextures f)) 0 (resize_body width1 height1);;
    f ← get_this;
    match depthTexture f with
    | Some d =>
        let resolution := resolution d in
        emit (SetSize d (number_div width1 resolution)
                        (number_div height1 resolution))
    | None => mret tt
    end;;
    mret ReturnUndefined.

(** The call [resize] makes on one surface. *)
Definition setSize_call (width1 height1 : number) (t : Texture) : call :=
  SetSize t (number_div width1 (resolution t))
            (number_div height1 (resolution t)).

(** ** Sequences of method calls *)

Inductive op : Type :=
| AddColorTexture (index : option nat) (texture : option Texture)
| AddDepthTexture (texture : option Texture)
| EnableDepth
| EnableStencil
| Resize (width0 height0 : jsval)
| Dispose
| DestroyDepthTexture.

Definition exec (o : op) : M returned :=
  match o with
  | AddColorTexture index texture => addColorTexture index texture
  | AddDepthTexture texture => addDepthTexture texture
  | EnableDepth => enableDepth
  | EnableStencil => enableStencil
  | Resize w h => resize w h
  | Dispose => dispose
  | DestroyDepthTexture => destroyDepthTexture
  end.

(** The world after a call, whether it returned or threw (the caller may
    catch the error and go on using the object). *)
Definition step (o : op) (w : World) : World := (exec o w).1.

Definition run (os : list op) (w : World) : World :=
  foldl (λ w o, step o w) w os.

(** One division to run closed examples with: the exact quotient of finite
    operands (what binary64 returns whenever that quotient is representable),
    NaN where an operand is not finite or the divisor is zero. *)
Definition exact_div (a b : number) : number :=
  match a, b with
  | Fin p, Fin q => if Qeq_bool q 0 then NaN else Fin (Qred (p / q))
  | NegZero, Fin q => if Qeq_bool q 0 then NaN else NegZero
  | _, _ => NaN
  end.

(** ** Vocabulary of the statements *)

Definition positive_integer (n : number) : Prop :=
  ∃ z : Z, (0 < z)%Z ∧ n = Fin (inject_Z z).

(** A strictly positive finite number. *)
Definition positive_finite (v : jsval) : Prop :=
  ∃ q : Q, v = Num (Fin q) ∧ (0 < q)%Q.

(** What the constructor turns into a positive dimension: a falsy argument
    (replaced by 100) or a strictly positive finite one. *)
Definition constructor_dimension_ok (v : jsval) : Prop :=
  ToBoolean v = false ∨ positive_finite v.

Definition op_dimensions_ok (o : op) : Prop :=
  match o with
  | Resize w h => positive_finite w ∧ positive_finite h
  | _ => True
  end.

(** The three ways one call can move (dirtyId, dirtyFormat, dirtySize). *)
Inductive bump : Type :=
| NoBump
| FormatBump
| SizeBump.

Definition bumped (b : bump) (f f' : Framebuffer) : Prop :=
  match b with
  | NoBump =>
      dirtyId f' = dirtyId f ∧ dirtyFormat f' = dirtyFormat f
      ∧ dirtySize f' = dirtySize f
  | FormatBump =>
      dirtyId f' = (dirtyId f + 1)%N ∧ dirtyFormat f' = (dirtyFormat f + 1)%N
      ∧ dirtySize f' = dirtySize f
  | SizeBump =>
      dirtyId f' = (dirtyId f + 1)%N ∧ dirtyFormat f' = dirtyFormat f
      ∧ dirtySize f' = (dirtySize f + 1)%N
  end.

(** [resize] takes the short-circuit exit on this object. *)
Definition same_size (width0 height0 : jsval) (f : Framebuffer) : bool :=
  strict_eq (Math_ceil (ToNumber width0)) (width f)
  && strict_eq (Math_ceil (ToNumber height0)) (height f).

(** The numbers JavaScript takes for false: NaN and the two zeros. *)
Definition zero_or_NaN (n : number) : bool :=
  match n with
  | NaN => true
  | NegZero => true
  | Fin q => Qeq_bool q 0
  | Infinity _ => false
  end.

(** [addDepthTexture] has to build a depth resource (no surface was passed)
    and the current width or height is one a buffer resource refuses. *)
Definition resource_refused (texture : option Texture) (f : Framebuffer)
  : bool :=
  match texture with
  | Some _ => false
  | None => zero_or_NaN (width f) || zero_or_NaN (height f)
  end.

(** [n] is the least integer not below [q], as a JavaScript number: the
    zero reached from below is the negative one. *)
Definition ceiling_of (q : Q) (n : number) : Prop :=
  ∃ z : Z,
    (inject_Z (z - 1) < q)%Q ∧ (q <= inject_Z z)%Q
    ∧ ((z = 0%Z ∧ (q < 0)%Q ∧ n = NegZero)
       ∨ (¬ (z = 0%Z ∧ (q < 0)%Q) ∧ n = Fin (inject_Z z))).

(** The dimension the constructor is to store for an argument, case by case:
    100 for a missing argument, NaN and the two zeros, the argument itself
    for an infinity, the ceiling for any other number. *)
Definition constructed_dimension (v : jsval) (n : number) : Prop :=
  match v with
  | Undefined => n = Fin 100
  | Num NaN => n = Fin 100
  | Num NegZero => n = Fin 100
  | Num (Infinity s) => n = Infinity s
  | Num (Fin q) =>
      ((q == 0)%Q → n = Fin 100) ∧ (¬ (q == 0)%Q → ceiling_of q n)
  end.

(** A number with no fractional part: a finite one is an integer. *)
Definition integral (n : number) : Prop :=
  match n with
  | Fin q => ∃ z : Z, q = inject_Z z
  | _ => True
  end.

Definition is_EnableDepth (o : op) : bool :=
  match o with EnableDepth => true | _ => false end.

Definition is_EnableStencil (o : op) : bool :=
  match o with EnableStencil => true | _ => false end.

(** The surfaces an object holds: its colour slots and its depth surface. *)
Definition attached (f : Framebuffer) (t : Texture) : Prop :=
  Some t ∈ colorTextures f ∨ depthTexture f = Some t.

(** * Properties *)

(** ** Numbers *)

Lemma Math_ceil_positive (q : Q) :
  (0 < q)%Q → positive_integer (Math_ceil (Fin q)).
Proof.
  intros Hq. exists (Qceiling q).
  assert (Hz : (0 < Qceiling q)%Z).
  { rewrite Zlt_Qlt. eapply Qlt_le_trans; [exact Hq | apply Qle_ceiling]. }
  split; [exact Hz |].
  simpl. replace (Qceiling q =? 0)%Z with false; [reflexivity |].
  symmetry. apply Z.eqb_neq. lia.
Qed.

Lemma world_eta (w : World) : mkWorld (this w) (calls w) (allocated w) = w.
Proof. by destruct w. Qed.

(** ** The loop of [resize] *)

(** Started at index [length pre] on the array [pre ++ suffix], the loop calls
    [setSize] on the surfaces of [suffix] up to its first hole and throws
    there; the object itself is not written. *)
Lemma for_loop_resize_body (width1 height1 : number) (suffix : jsarray Texture) :
  ∀ (pre : jsarray Texture) (w : World),
    colorTextures (this w) = pre ++ suffix →
    for_loop (length suffix) (length pre) (resize_body width1 height1) w
    = (mkWorld (this w)
         (calls w ++ (setSize_call width1 height1 <$> present_prefix suffix))
         (allocated w),
       if has_hole suffix then Throw (CannotReadProperty "resolution")
       else Normal tt).
Proof.
  induction suffix as [| slot suffix IH]; intros pre w Hw.
  - simpl. rewrite app_nil_r, world_eta. reflexivity.
  - assert (Hget : array_get (colorTextures (this w)) (length pre) = slot).
    { unfold array_get. rewrite Hw, list_lookup_middle by reflexivity.
      reflexivity. }
    cbn [for_loop length]. unfold mbind, M_bind at 1.
    unfold resize_body at 1, mbind, M_bind at 1, get_this.
    rewrite Hget. destruct slot as [t |].
    + cbn [emit has_hole present_prefix fmap list_fmap].
      specialize (IH (pre ++ [Some t])
                     (mkWorld (this w)
                        (calls w ++ [setSize_call width1 height1 t])
                        (allocated w))).
      rewrite length_app, Nat.add_1_r in IH. cbn [length] in IH.
      etrans.
      { apply IH. cbn. rewrite Hw, <- app_assoc. reflexivity. }
      cbn. rewrite <- app_assoc. reflexivity.
    + cbn. rewrite app_nil_r, world_eta. reflexivity.
Qed.

Lemma resize_loop (width1 height1 : number) (f : Framebuffer)
    (c : list call) (n : nat) :
  for_loop (length (colorTextures f)) 0 (resize_body width1 height1)
    (mkWorld f c n)
  = (mkWorld f
       (c ++ (setSize_call width1 height1 <$> present_prefix (colorTextures f)))
       n,
     if has_hole (colorTextures f) then Throw (CannotReadProperty "resolution")
     else Normal tt).
Proof.
  exact (for_loop_resize_body width1 height1 (colorTextures f) []
           (mkWorld f c n) eq_refl).
Qed.

(** What a size-changing [resize] does, holes or not. *)
Lemma resize_changed (width0 height0 : jsval) (w : World) :
  same_size width0 height0 (this w) = false →
  resize width0 height0 w
  = let width1 := Math_ceil (ToNumber width0) in
    let height1 := Math_ceil (ToNumber height0) in
    let f := this w in
    (mkWorld
       (set_dirtySize (incr (dirtySize f))
          (set_dirtyId (incr (dirtyId f))
             (set_height height1 (set_width width1 f))))
       (calls w
        ++ (setSize_call width1 height1 <$> present_prefix (colorTextures f))
        ++ (if has_hole (colorTextures f) then []
            else match depthTexture f with
                 | Some d => [setSize_call width1 height1 d]
                 | None => []
                 end))
       (allocated w),
     if has_hole (colorTextures f)
     then Throw (CannotReadProperty "resolution")
     else Normal ReturnUndefined).
Proof.
  unfold same_size. intros Hne.
  unfold resize. unfold mbind at 1, M_bind at 1, get_this at 1.
  rewrite Hne.
  unfold mbind, M_bind, mret, M_ret, update, get_this.
  cbn beta iota delta [this calls allocated].
  rewrite resize_loop. unfold emit. cbn.
  destruct (has_hole (colorTextures (this w))).
  - rewrite app_nil_r. reflexivity.
  - destruct (depthTexture (this w)); cbn; rewrite <- ?app_assoc, ?app_nil_r;
      reflexivity.
Qed.

(** The short-circuit exit of [resize]. *)
Lemma resize_same (width0 height0 : jsval) (w : World) :
  same_size width0 height0 (this w) = true →
  resize width0 height0 w = (w, Normal ReturnUndefined).
Proof.
  unfold same_size. intros Heq.
  unfold resize. unfold mbind at 1, M_bind at 1, get_this at 1.
  rewrite Heq. reflexivity.
Qed.

(** ** Writing a slot of a holed array *)

Lemma array_set_length {A} (i : nat) (v : A) (a : jsarray A) :
  length (array_set i v a) = max (length a) (S i).
Proof.
  unfold array_set. rewrite length_insert, length_app, length_replicate. lia.
Qed.

Lemma array_get_set_eq {A} (i : nat) (v : A) (a : jsarray A) :
  array_get (array_set i v a) i = Some v.
Proof.
  unfold array_get, array_set. rewrite list_lookup_insert_eq; [reflexivity |].
  rewrite length_app, length_replicate. lia.
Qed.

Lemma array_get_set_ne {A} (i j : nat) (v : A) (a : jsarray A) :
  j ≠ i → array_get (array_set i v a) j = array_get a j.
Proof.
  intros Hne. unfold array_get, array_set.
  rewrite list_lookup_insert_ne by congruence.
  destruct (decide (j < length a)) as [Hlt | Hge].
  - rewrite lookup_app_l by exact Hlt. reflexivity.
  - rewrite lookup_app_r by lia.
    rewrite (lookup_ge_None_2 a j) by lia.
    destruct (replicate (S i - length a) None !! (j - length a)) as [x |] eqn:E;
      [| reflexivity].
    apply lookup_replicate in E as [-> _]. reflexivity.
Qed.

(** ** Attaching surfaces *)

Ltac run_method :=
  unfold mbind, M_bind, mret, M_ret, update, emit, get_this, throw,
    new_BaseTexture;
  cbn.

Lemma addColorTexture_world (index : option nat) (texture : option Texture)
    (w : World) :
  addColorTexture index texture w
  = let f := this w in
    let t := default (mkTexture (allocated w) (Fin 1)) texture in
    (mkWorld
       (set_dirtyFormat (incr (dirtyFormat f))
          (set_dirtyId (incr (dirtyId f))
             (set_colorTextures
                (array_set (default 0 index) t (colorTextures f)) f)))
       (calls w ++ match texture with
                   | Some _ => []
                   | None => [NewBaseTexture t None (default_color_options f)]
                   end)
       (match texture with
        | Some _ => allocated w
        | None => S (allocated w)
        end),
     Normal ReturnThis).
Proof.
  unfold addColorTexture. destruct texture; run_method;
    rewrite ?app_nil_r; reflexivity.
Qed.

Lemma negb_truthy (n : number) : negb (number_truthy n) = zero_or_NaN n.
Proof. destruct n; cbn; [reflexivity .. |]. apply negb_involutive. Qed.

Lemma addDepthTexture_world (texture : option Texture) (w : World) :
  addDepthTexture texture w
  = let f := this w in
    let t := default (mkTexture (allocated w) (Fin 1)) texture in
    if resource_refused texture f then (w, Throw InvalidBufferSize)
    else
      (mkWorld
         (set_dirtyFormat (incr (dirtyFormat f))
            (set_dirtyId (incr (dirtyId f)) (set_depthTexture (Some t) f)))
         (calls w ++ match texture with
                     | Some _ => []
                     | None =>
                         [NewBaseTexture t
                            (Some (mkDepthResource (width f) (height f)))
                            (default_depth_options f)]
                     end)
         (match texture with
          | Some _ => allocated w
          | None => S (allocated w)
          end),
       Normal ReturnThis).
Proof.
  unfold addDepthTexture, new_DepthResource, resource_refused.
  destruct texture; run_method; rewrite ?app_nil_r; [reflexivity |].
  rewrite !negb_truthy.
  destruct (zero_or_NaN (width (this w)) || zero_or_NaN (height (this w)));
    reflexivity.
Qed.

(** ** One call and the counters *)

Lemma exec_bumped (o : op) (w : World) :
  ∃ b : bump, bumped b (this w) (this (step o w)).
Proof.
  unfold step. destruct o as [i t | t | | | w0 h0 | |]; cbn [exec].
  - exists FormatBump. rewrite addColorTexture_world. cbn. auto.
  - rewrite addDepthTexture_world. cbv zeta.
    destruct (resource_refused t (this w));
      [exists NoBump | exists FormatBump]; cbn; auto.
  - exists FormatBump. cbn. auto.
  - exists FormatBump. cbn. auto.
  - destruct (same_size w0 h0 (this w)) eqn:E.
    + exists NoBump. rewrite resize_same by exact E. cbn. auto.
    + exists SizeBump. rewrite resize_changed by exact E. cbn. auto.
  - exists NoBump. cbn. auto.
  - unfold destroyDepthTexture. run_method.
    destruct (depthTexture (this w)); [exists FormatBump | exists NoBump];
      cbn; auto.
Qed.

Lemma bumped_le (b : bump) (f f' : Framebuffer) :
  bumped b f f' →
  (dirtyId f ≤ dirtyId f' ∧ dirtyFormat f ≤ dirtyFormat f'
   ∧ dirtySize f ≤ dirtySize f')%N.
Proof. destruct b; cbn; lia. Qed.

Lemma run_snoc (os : list op) (o : op) (w : World) :
  run (os ++ [o]) w = step o (run os w).
Proof. unfold run. rewrite foldl_snoc. reflexivity. Qed.

Lemma run_counters_le (os : list op) (w : World) :
  (dirtyId (this w) ≤ dirtyId (this (run os w))
   ∧ dirtyFormat (this w) ≤ dirtyFormat (this (run os w))
   ∧ dirtySize (this w) ≤ dirtySize (this (run os w)))%N.
Proof.
  induction os as [| o os IH] using rev_ind.
  - cbn. lia.
  - rewrite run_snoc.
    destruct (exec_bumped o (run os w)) as [b Hb].
    apply bumped_le in Hb. lia.
Qed.

(** C1. Over any sequence of calls the three counters never decrease; one
    call moves them in one of three ways only (nothing, dirtyId with
    dirtyFormat, dirtyId with dirtySize), so a call that raises dirtyFormat or
    dirtySize raises dirtyId as well. *)
Theorem dirty_counters_monotone (os : list op) (o : op) (w : World) :
  let w1 := run os w in
  let w2 := step o w1 in
  (dirtyId (this w) ≤ dirtyId (this w1)
   ∧ dirtyFormat (this w) ≤ dirtyFormat (this w1)
   ∧ dirtySize (this w) ≤ dirtySize (this w1))%N
  ∧ (dirtyId (this w1) ≤ dirtyId (this w2)
     ∧ dirtyFormat (this w1) ≤ dirtyFormat (this w2)
     ∧ dirtySize (this w1) ≤ dirtySize (this w2))%N
  ∧ (∃ b : bump, bumped b (this w1) (this w2))
  ∧ ((dirtyFormat (this w1) < dirtyFormat (this w2)
      ∨ dirtySize (this w1) < dirtySize (this w2))%N
     → (dirtyId (this w1) < dirtyId (this w2))%N).
Proof.
  intros w1 w2.
  destruct (exec_bumped o w1) as [b Hb]. fold w2 in Hb.
  split; [apply run_counters_le |].
  split; [eapply bumped_le; exact Hb |].
  split; [exists b; exact Hb |].
  destruct b; cbn in Hb; lia.
Qed.

(** ** Construction *)

Lemma Math_ceil_ceiling_of (q : Q) : ceiling_of q (Math_ceil (Fin q)).
Proof.
  exists (Qceiling q).
  split; [apply Qceiling_lt |]. split; [apply Qle_ceiling |].
  assert (Hneg : (Qnum q <? 0)%Z = true ↔ (q < 0)%Q).
  { rewrite Z.ltb_lt. unfold Qlt. cbn. lia. }
  cbn. destruct ((Qceiling q =? 0)%Z && (Qnum q <? 0)%Z)%bool eqn:E.
  - apply andb_true_iff in E as [Hz Hq]. left.
    split; [apply Z.eqb_eq; exact Hz |]. split; [apply Hneg; exact Hq |].
    reflexivity.
  - right. split; [| reflexivity]. intros [Hz Hq].
    apply andb_false_iff in E as [E | E].
    + apply Z.eqb_neq in E. exact (E Hz).
    + apply Hneg in Hq. congruence.
Qed.

Lemma constructor_dimension_spec (v : jsval) :
  constructed_dimension v (Math_ceil (ToNumber (js_or v hundred))).
Proof.
  destruct v as [| [| s | | q]]; try reflexivity.
  unfold constructed_dimension, js_or. cbn [ToBoolean number_truthy].
  split; intros Hq.
  - apply Qeq_bool_iff in Hq. rewrite Hq. reflexivity.
  - replace (Qeq_bool q 0) with false.
    + cbn [negb ToNumber]. apply Math_ceil_ceiling_of.
    + symmetry. apply not_true_is_false. intros H. apply Hq, Qeq_bool_iff, H.
Qed.

(** C6. Construction is a total function of its two arguments (nothing can
    make it fail).  For each dimension it stores 100 when the argument is
    missing, NaN or a zero of either sign, and otherwise the least integer
    not below the argument (an infinity as it is).  Both flags and all three
    counters start cleared, with no colour surface, no depth surface and an
    empty cache of native bindings. *)
Theorem constructor_initial_state (width0 height0 : jsval) :
  let f := constructor width0 height0 in
  constructed_dimension width0 (width f)
  ∧ constructed_dimension height0 (height f)
  ∧ stencil f = false
  ∧ depth f = false
  ∧ dirtyId f = 0%N ∧ dirtyFormat f = 0%N ∧ dirtySize f = 0%N
  ∧ colorTextures f = []
  ∧ colorTexture f = None
  ∧ depthTexture f = None
  ∧ glFramebuffers f = ∅.
Proof.
  cbv zeta. cbn [constructor width height].
  split; [apply constructor_dimension_spec |].
  split; [apply constructor_dimension_spec |].
  repeat split.
Qed.

(** The falsy arguments, one by one. *)
Lemma constructor_defaults :
  width (constructor Undefined Undefined) = Fin 100
  ∧ width (constructor (Num (Fin 0)) Undefined) = Fin 100
  ∧ width (constructor (Num NegZero) Undefined) = Fin 100
  ∧ width (constructor (Num NaN) Undefined) = Fin 100
  ∧ width (constructor (Num (Fin 50.2)) Undefined) = Fin 51.
Proof. repeat split. Qed.

(** C7, as the code has it.  [addColorTexture] puts at [colorTextures[index]]
    (index 0 when omitted) the surface it was given or, given none, a surface
    it has just built with nearest sampling, resolution 1, no mipmap and the
    current width and height; the other slots keep their content.  It adds
    exactly 1 to dirtyId and to dirtyFormat, leaves dirtySize, width and
    height alone, and returns [this].  [addDepthTexture] does the same with
    [depthTexture], with one exception: given no surface on an object whose
    width or height is NaN or a zero, the depth resource it has to build
    refuses that size, and the call throws with nothing written. *)
Theorem add_texture_spec (index : option nat) (texture : option Texture)
    (w : World) :
  let f := this w in
  let i := default 0 index in
  let fresh := mkTexture (allocated w) (Fin 1) in
  let t := default fresh texture in
  let color := addColorTexture index texture w in
  let depth := addDepthTexture texture w in
  (color.2 = Normal ReturnThis
   ∧ array_get (colorTextures (this color.1)) i = Some t
   ∧ (∀ j, j ≠ i →
        array_get (colorTextures (this color.1)) j
        = array_get (colorTextures f) j)
   ∧ length (colorTextures (this color.1)) = max (length (colorTextures f)) (S i)
   ∧ depthTexture (this color.1) = depthTexture f
   ∧ calls color.1
     = calls w
       ++ match texture with
          | Some _ => []
          | None =>
              [NewBaseTexture fresh None
                 (mkOptions (Some NEAREST) (Fin 1) (Some false)
                    (width f) (height f) None None)]
          end
   ∧ dirtyId (this color.1) = (dirtyId f + 1)%N
   ∧ dirtyFormat (this color.1) = (dirtyFormat f + 1)%N
   ∧ dirtySize (this color.1) = dirtySize f
   ∧ width (this color.1) = width f
   ∧ height (this color.1) = height f)
  ∧ (if resource_refused texture f
     then depth = (w, Throw InvalidBufferSize)
     else
       depth.2 = Normal ReturnThis
       ∧ depthTexture (this depth.1) = Some t
       ∧ colorTextures (this depth.1) = colorTextures f
       ∧ calls depth.1
         = calls w
           ++ match texture with
              | Some _ => []
              | None =>
                  [NewBaseTexture fresh
                     (Some (mkDepthResource (width f) (height f)))
                     (mkOptions (Some NEAREST) (Fin 1) (Some false)
                        (width f) (height f)
                        (Some DEPTH_COMPONENT) (Some UNSIGNED_SHORT))]
              end
       ∧ dirtyId (this depth.1) = (dirtyId f + 1)%N
       ∧ dirtyFormat (this depth.1) = (dirtyFormat f + 1)%N
       ∧ dirtySize (this depth.1) = dirtySize f
       ∧ width (this depth.1) = width f
       ∧ height (this depth.1) = height f).
Proof.
  intros f i fresh t color depth0. subst color depth0.
  rewrite addColorTexture_world, addDepthTexture_world.
  cbv zeta. cbn [fst snd this calls allocated].
  split.
  - split; [reflexivity |].
    split; [apply array_get_set_eq |].
    split; [intros j Hj; apply array_get_set_ne; exact Hj |].
    split; [apply array_set_length |].
    destruct texture; repeat split.
  - fold f. destruct (resource_refused texture f); [reflexivity |].
    destruct texture; repeat split.
Qed.

(** ** The two flags *)

Lemma enableDepth_world (w : World) :
  enableDepth w
  = (mkWorld
       (set_dirtyFormat (incr (dirtyFormat (this w)))
          (set_dirtyId (incr (dirtyId (this w))) (set_depth true (this w))))
       (calls w) (allocated w),
     Normal ReturnThis).
Proof. reflexivity. Qed.

Lemma enableStencil_world (w : World) :
  enableStencil w
  = (mkWorld
       (set_dirtyFormat (incr (dirtyFormat (this w)))
          (set_dirtyId (incr (dirtyId (this w))) (set_stencil true (this w))))
       (calls w) (allocated w),
     Normal ReturnThis).
Proof. reflexivity. Qed.

(** C8. [enableDepth] sets [depth], [enableStencil] sets [stencil]; each call
    adds exactly 1 to dirtyId and to dirtyFormat whatever the flag was before,
    so two calls in a row add 2 to each. *)
Theorem enable_flags_bump_every_call (w : World) :
  let f := this w in
  let d1 := (enableDepth w).1 in
  let d2 := (enableDepth d1).1 in
  let s1 := (enableStencil w).1 in
  let s2 := (enableStencil s1).1 in
  ((enableDepth w).2 = Normal ReturnThis
   ∧ depth (this d1) = true
   ∧ stencil (this d1) = stencil f
   ∧ dirtyId (this d1) = (dirtyId f + 1)%N
   ∧ dirtyFormat (this d1) = (dirtyFormat f + 1)%N
   ∧ dirtySize (this d1) = dirtySize f)
  ∧ ((enableStencil w).2 = Normal ReturnThis
     ∧ stencil (this s1) = true
     ∧ depth (this s1) = depth f
     ∧ dirtyId (this s1) = (dirtyId f + 1)%N
     ∧ dirtyFormat (this s1) = (dirtyFormat f + 1)%N
     ∧ dirtySize (this s1) = dirtySize f)
  ∧ (depth (this d2) = true
     ∧ dirtyId (this d2) = (dirtyId f + 2)%N
     ∧ dirtyFormat (this d2) = (dirtyFormat f + 2)%N
     ∧ dirtySize (this d2) = dirtySize f)
  ∧ (stencil (this s2) = true
     ∧ dirtyId (this s2) = (dirtyId f + 2)%N
     ∧ dirtyFormat (this s2) = (dirtyFormat f + 2)%N
     ∧ dirtySize (this s2) = dirtySize f).
Proof.
  cbv zeta. rewrite !enableDepth_world, !enableStencil_world.
  cbn -[N.add]. unfold incr. repeat split; lia.
Qed.

(** ** Dropping the depth surface *)

(** C9. Without a depth surface [destroyDepthTexture] returns with the world
    exactly as it found it.  With one, it calls [destroy] on that surface,
    clears [depthTexture], adds exactly 1 to dirtyId and to dirtyFormat, and
    leaves dirtySize, the size, the flags and the colour surfaces alone. *)
Theorem destroyDepthTexture_spec (w : World) :
  let f := this w in
  let w' := (destroyDepthTexture w).1 in
  (destroyDepthTexture w).2 = Normal ReturnUndefined
  ∧ match depthTexture f with
    | None => w' = w
    | Some d =>
        calls w' = calls w ++ [Destroy d]
        ∧ depthTexture (this w') = None
        ∧ dirtyId (this w') = (dirtyId f + 1)%N
        ∧ dirtyFormat (this w') = (dirtyFormat f + 1)%N
        ∧ dirtySize (this w') = dirtySize f
        ∧ width (this w') = width f
        ∧ height (this w') = height f
        ∧ depth (this w') = depth f
        ∧ stencil (this w') = stencil f
        ∧ colorTextures (this w') = colorTextures f
        ∧ allocated w' = allocated w
    end.
Proof.
  unfold destroyDepthTexture. run_method.
  destruct (depthTexture (this w)); cbn; repeat split.
Qed.

(** ** Resizing *)

(** C3. When the ceilings of the arguments are [===] to the stored width and
    height, [resize] returns at once: the world after the call is the world
    before it, so no counter, no dimension and no surface has been touched. *)
Theorem resize_same_size_noop (width0 height0 : jsval) (w : World) :
  strict_eq (Math_ceil (ToNumber width0)) (width (this w)) = true →
  strict_eq (Math_ceil (ToNumber height0)) (height (this w)) = true →
  resize width0 height0 w = (w, Normal ReturnUndefined).
Proof.
  intros Hw Hh. apply resize_same. unfold same_size.
  rewrite Hw, Hh. reflexivity.
Qed.

(** C10. [resize] has no default: on an object whose width or height is not
    zero, [resize(0, 0)] stores 0 and 0 and counts as a change of size
    (dirtyId and dirtySize go up by 1, dirtyFormat stays), whereas the
    constructor turns the same arguments into 100 and 100. *)
Theorem resize_zero_not_defaulted (w : World) :
  strict_eq (Fin 0) (width (this w)) = false
  ∨ strict_eq (Fin 0) (height (this w)) = false →
  let f := this w in
  let w' := (resize (Num (Fin 0)) (Num (Fin 0)) w).1 in
  width (this w') = Fin 0
  ∧ height (this w') = Fin 0
  ∧ dirtyId (this w') = (dirtyId f + 1)%N
  ∧ dirtySize (this w') = (dirtySize f + 1)%N
  ∧ dirtyFormat (this w') = dirtyFormat f
  ∧ width (constructor (Num (Fin 0)) (Num (Fin 0))) = Fin 100
  ∧ height (constructor (Num (Fin 0)) (Num (Fin 0))) = Fin 100.
Proof.
  intros Hne f w'. subst f w'.
  rewrite resize_changed.
  - cbn. repeat split.
  - unfold same_size. apply andb_false_iff. exact Hne.
Qed.

Lemma dense_present_prefix {A} (a : jsarray A) :
  has_hole a = false → a = Some <$> present_prefix a.
Proof.
  induction a as [| [x |] a IH]; cbn; intros H.
  - reflexivity.
  - f_equal. apply IH. exact H.
  - discriminate.
Qed.

(** X15. On an array without holes a size-changing [resize] runs to its end:
    [setSize] reaches every colour surface, in order, then the depth surface
    if there is one, each with the new size divided by its own resolution. *)
Lemma resize_without_holes (width0 height0 : jsval) (w : World) :
  has_hole (colorTextures (this w)) = false →
  same_size width0 height0 (this w) = false →
  let f := this w in
  let width1 := Math_ceil (ToNumber width0) in
  let height1 := Math_ceil (ToNumber height0) in
  let r := resize width0 height0 w in
  r.2 = Normal ReturnUndefined
  ∧ width (this r.1) = width1
  ∧ height (this r.1) = height1
  ∧ dirtyId (this r.1) = (dirtyId f + 1)%N
  ∧ dirtySize (this r.1) = (dirtySize f + 1)%N
  ∧ dirtyFormat (this r.1) = dirtyFormat f
  ∧ colorTextures f = Some <$> present_prefix (colorTextures f)
  ∧ calls r.1
    = calls w
      ++ (setSize_call width1 height1 <$> present_prefix (colorTextures f))
      ++ match depthTexture f with
         | Some d => [setSize_call width1 height1 d]
         | None => []
         end.
Proof.
  intros Hd Hne f width1 height1 r. subst f width1 height1 r.
  rewrite resize_changed by exact Hne. cbv zeta. rewrite Hd.
  cbn [fst snd this calls].
  split; [reflexivity |]. do 5 (split; [reflexivity |]).
  split; [apply dense_present_prefix; exact Hd | reflexivity].
Qed.

(** C2. The object a caller gets from [new Framebuffer(100, 100)],
    [addColorTexture(1, t)] and [addDepthTexture(d)] has a hole at index 0.
    On it [resize(200, 200)] stores the new size and raises dirtyId and
    dirtySize, then dies reading [resolution] of the hole: neither [t] nor
    [d] sees a [setSize]. *)
Theorem resize_stops_at_hole :
  let t := mkTexture 7 (Fin 2) in
  let d := mkTexture 8 (Fin 1) in
  let w := run [AddColorTexture (Some 1) (Some t); AddDepthTexture (Some d)]
             (new_Framebuffer 9 (Num (Fin 100)) (Num (Fin 100))) in
  let r := resize (Num (Fin 200)) (Num (Fin 200)) w in
  colorTextures (this w) = [None; Some t]
  ∧ depthTexture (this w) = Some d
  ∧ calls w = []
  ∧ same_size (Num (Fin 200)) (Num (Fin 200)) (this w) = false
  ∧ r.2 = Throw (CannotReadProperty "resolution")
  ∧ calls r.1 = []
  ∧ width (this r.1) = Fin 200
  ∧ height (this r.1) = Fin 200
  ∧ dirtyId (this r.1) = (dirtyId (this w) + 1)%N
  ∧ dirtySize (this r.1) = (dirtySize (this w) + 1)%N.
Proof.
  cbv zeta. repeat split.
Qed.

(** C4. On an array with a hole a size-changing [resize] does not skip the
    hole: it throws a [TypeError] there, after the [setSize] calls on the
    surfaces in front of the hole and before those behind it and the depth
    surface.  The new size and the two counters are already written. *)
Theorem resize_throws_on_hole (width0 height0 : jsval) (w : World) :
  has_hole (colorTextures (this w)) = true →
  same_size width0 height0 (this w) = false →
  let f := this w in
  let width1 := Math_ceil (ToNumber width0) in
  let height1 := Math_ceil (ToNumber height0) in
  let r := resize width0 height0 w in
  r.2 = Throw (CannotReadProperty "resolution")
  ∧ calls r.1
    = calls w
      ++ (setSize_call width1 height1 <$> present_prefix (colorTextures f))
  ∧ width (this r.1) = width1
  ∧ height (this r.1) = height1
  ∧ dirtyId (this r.1) = (dirtyId f + 1)%N
  ∧ dirtySize (this r.1) = (dirtySize f + 1)%N.
Proof.
  intros Hh Hne f width1 height1 r. subst f width1 height1 r.
  rewrite resize_changed by exact Hne. cbv zeta. rewrite Hh.
  cbn [fst snd this calls]. rewrite app_nil_r.
  repeat split.
Qed.

(** ** The stored size *)

Lemma constructor_dimension_positive (v : jsval) :
  constructor_dimension_ok v →
  positive_integer (Math_ceil (ToNumber (js_or v hundred))).
Proof.
  unfold js_or. intros [Hfalsy | (q & -> & Hq)].
  - rewrite Hfalsy. exists 100%Z. split; [lia | reflexivity].
  - cbn [ToBoolean number_truthy].
    replace (Qeq_bool q 0) with false.
    + cbn [negb ToNumber]. apply Math_ceil_positive. exact Hq.
    + symmetry. apply not_true_is_false. intros H%Qeq_bool_eq.
      rewrite H in Hq. exact (Qlt_irrefl 0 Hq).
Qed.

Lemma step_keeps_size (o : op) (w : World) :
  (∀ w0 h0, o ≠ Resize w0 h0) →
  width (this (step o w)) = width (this w)
  ∧ height (this (step o w)) = height (this w).
Proof.
  intros Hnot. unfold step.
  destruct o as [i t | t | | | w0 h0 | |]; cbn [exec].
  - rewrite addColorTexture_world. split; reflexivity.
  - rewrite addDepthTexture_world. cbv zeta.
    destruct (resource_refused t (this w)); split; reflexivity.
  - split; reflexivity.
  - split; reflexivity.
  - destruct (Hnot w0 h0 eq_refl).
  - split; reflexivity.
  - unfold destroyDepthTexture. run_method.
    destruct (depthTexture (this w)); split; reflexivity.
Qed.

Lemma step_positive (o : op) (w : World) :
  op_dimensions_ok o →
  positive_integer (width (this w)) ∧ positive_integer (height (this w)) →
  positive_integer (width (this (step o w)))
  ∧ positive_integer (height (this (step o w))).
Proof.
  intros Hok Hpos.
  assert (Hkeep : (∀ w0 h0, o ≠ Resize w0 h0) →
                  positive_integer (width (this (step o w)))
                  ∧ positive_integer (height (this (step o w)))).
  { intros Hnot. destruct (step_keeps_size o w Hnot) as [-> ->]. exact Hpos. }
  destruct o as [i t | t | | | w0 h0 | |];
    try (apply Hkeep; intros ? ?; discriminate).
  clear Hkeep.
  cbn in Hok. destruct Hok as [(qw & -> & Hqw) (qh & -> & Hqh)].
  unfold step. cbn [exec].
  destruct (same_size (Num (Fin qw)) (Num (Fin qh)) (this w)) eqn:E.
  - rewrite resize_same by exact E. exact Hpos.
  - rewrite resize_changed by exact E.
    cbn [fst this width height set_dirtySize set_dirtyId set_height set_width
           ToNumber].
    split; apply Math_ceil_positive; assumption.
Qed.

(** C5, as the code has it.  Built from arguments that are falsy or strictly
    positive finite numbers, and resized only with strictly positive finite
    numbers, the object always holds a positive integer width and height,
    whatever else is called in between. *)
Theorem size_positive_on_positive_arguments (n : nat)
    (width0 height0 : jsval) (os : list op) :
  constructor_dimension_ok width0 →
  constructor_dimension_ok height0 →
  Forall op_dimensions_ok os →
  let f := this (run os (new_Framebuffer n width0 height0)) in
  positive_integer (width f) ∧ positive_integer (height f).
Proof.
  intros Hw Hh Hos. cbv zeta.
  induction os as [| o os IH] using rev_ind.
  - cbn. split; apply constructor_dimension_positive; assumption.
  - apply Forall_app in Hos as [Hos Ho]. rewrite Forall_singleton in Ho.
    rewrite run_snoc. apply step_positive; [exact Ho | exact (IH Hos)].
Qed.

(** * Further properties of the class *)

(** ** Every method, path by path *)

Lemma dispose_world (w : World) :
  dispose w
  = (mkWorld (this w) (calls w ++ [Run (disposeRunner (this w)) false])
       (allocated w),
     Normal ReturnUndefined).
Proof. reflexivity. Qed.

Lemma destroyDepthTexture_world (w : World) :
  destroyDepthTexture w
  = match depthTexture (this w) with
    | Some d =>
        (mkWorld
           (set_dirtyFormat (incr (dirtyFormat (this w)))
              (set_dirtyId (incr (dirtyId (this w)))
                 (set_depthTexture None (this w))))
           (calls w ++ [Destroy d]) (allocated w),
         Normal ReturnUndefined)
    | None => (w, Normal ReturnUndefined)
    end.
Proof.
  unfold destroyDepthTexture. run_method.
  destruct (depthTexture (this w)); reflexivity.
Qed.

(** Splits a goal about [step o w] (or [exec o w]) into the ten paths of
    the class: one per method, two for [addDepthTexture], [resize] and
    [destroyDepthTexture]. *)
Ltac method_paths o w :=
  try unfold step;
  destruct o as [?i ?t | ?t | | | ?w0 ?h0 | |]; cbn [exec];
  [ rewrite addColorTexture_world
  | rewrite addDepthTexture_world; cbv zeta;
    match goal with
    | |- context [resource_refused ?a (this w)] =>
        let E := fresh "Eres" in destruct (resource_refused a (this w)) eqn:E
    end
  | rewrite enableDepth_world
  | rewrite enableStencil_world
  | match goal with
    | |- context [resize ?a ?b w] =>
        let E := fresh "Esize" in
        destruct (same_size a b (this w)) eqn:E;
        [ rewrite (resize_same a b w E) | rewrite (resize_changed a b w E) ]
    end
  | rewrite dispose_world
  | rewrite destroyDepthTexture_world;
    let E := fresh "Edepth" in destruct (depthTexture (this w)) eqn:E ];
  cbv zeta; cbn [fst snd this calls allocated].

(** ** When a method throws *)

(** X1. The class has two ways to fail and no other: [resize] with a new
    size on an array that has a hole (a property read on [undefined]), and
    [addDepthTexture] without a surface on an object whose width or height is
    NaN or a zero (the depth resource refuses the size). *)
Theorem exec_throws_iff (o : op) (w : World) (e : JsError) :
  (exec o w).2 = Throw e
  ↔ (e = CannotReadProperty "resolution"
     ∧ ∃ w0 h0, o = Resize w0 h0
                ∧ same_size w0 h0 (this w) = false
                ∧ has_hole (colorTextures (this w)) = true)
    ∨ (e = InvalidBufferSize
       ∧ o = AddDepthTexture None
       ∧ zero_or_NaN (width (this w)) || zero_or_NaN (height (this w)) = true).
Proof.
  split.
  - revert e. method_paths o w; intros e He; try discriminate He.
    + injection He as <-. right. destruct t; [discriminate Eres |].
      split; [reflexivity |]. split; [reflexivity | exact Eres].
    + destruct (has_hole (colorTextures (this w))) eqn:Hh; [| discriminate He].
      injection He as <-. left. split; [reflexivity |]. eauto.
  - intros [(-> & w0 & h0 & -> & Hne & Hh) | (-> & -> & Hz)]; cbn [exec].
    + rewrite resize_changed by exact Hne. cbv zeta. rewrite Hh. reflexivity.
    + rewrite addDepthTexture_world. cbv zeta. cbn [resource_refused].
      rewrite Hz. reflexivity.
Qed.

(** ** The counters add up *)

Lemma step_counter_sum (o : op) (w : World) :
  dirtyId (this w) = (dirtyFormat (this w) + dirtySize (this w))%N →
  dirtyId (this (step o w))
  = (dirtyFormat (this (step o w)) + dirtySize (this (step o w)))%N.
Proof.
  intros H. destruct (exec_bumped o w) as [[] Hb]; cbn in Hb; lia.
Qed.

Lemma step_counter_one (o : op) (w : World) :
  (dirtyId (this (step o w)) ≤ dirtyId (this w) + 1)%N.
Proof. destruct (exec_bumped o w) as [[] Hb]; cbn in Hb; lia. Qed.

(** X2. From construction on, dirtyId is the sum of dirtyFormat and
    dirtySize, and is at most the number of calls made. *)
Theorem dirtyId_is_format_plus_size (n : nat) (width0 height0 : jsval)
    (os : list op) :
  let f := this (run os (new_Framebuffer n width0 height0)) in
  dirtyId f = (dirtyFormat f + dirtySize f)%N
  ∧ (dirtyId f ≤ N.of_nat (length os))%N.
Proof.
  cbv zeta. induction os as [| o os [IHs IHl]] using rev_ind.
  - cbn. split; reflexivity.
  - rewrite run_snoc, length_app. cbn [length]. split.
    + apply step_counter_sum. exact IHs.
    + pose proof (step_counter_one o (run os (new_Framebuffer n width0 height0))).
      lia.
Qed.

(** ** The stored size has no fractional part *)

Lemma Math_ceil_integral (x : number) : integral (Math_ceil x).
Proof.
  destruct x as [| s | | q]; cbn; try exact I.
  destruct ((Qceiling q =? 0)%Z && (Qnum q <? 0)%Z)%bool; cbn; [exact I |].
  eauto.
Qed.

Lemma step_integral (o : op) (w : World) :
  integral (width (this w)) ∧ integral (height (this w)) →
  integral (width (this (step o w))) ∧ integral (height (this (step o w))).
Proof.
  intros Hi. method_paths o w; try exact Hi.
  cbn. split; apply Math_ceil_integral.
Qed.

(** X3. Whatever is passed to the constructor and to [resize] (fractions,
    negatives, NaN, nothing), a stored width or height that is finite is an
    integer. *)
Theorem stored_size_integral (n : nat) (width0 height0 : jsval)
    (os : list op) :
  let f := this (run os (new_Framebuffer n width0 height0)) in
  integral (width f) ∧ integral (height f).
Proof.
  cbv zeta. induction os as [| o os IH] using rev_ind.
  - cbn. split; apply Math_ceil_integral.
  - rewrite run_snoc. apply step_integral. exact IH.
Qed.

(** ** Calling [resize] again *)

Lemma strict_eq_ceil_refl (x : number) :
  x ≠ NaN → strict_eq (Math_ceil x) (Math_ceil x) = true.
Proof.
  intros Hx. destruct x as [| s | | q]; cbn.
  - destruct (Hx eq_refl).
  - destruct s; reflexivity.
  - reflexivity.
  - destruct ((Qceiling q =? 0)%Z && (Qnum q <? 0)%Z)%bool; cbn;
      [reflexivity |].
    apply Qeq_bool_iff. reflexivity.
Qed.

(** X4. With arguments other than NaN (or a missing argument), a second
    [resize] to the same size does nothing at all, whether or not the first
    one ran to its end. *)
Theorem resize_twice_noop (width0 height0 : jsval) (w : World) :
  ToNumber width0 ≠ NaN →
  ToNumber height0 ≠ NaN →
  let w1 := (resize width0 height0 w).1 in
  resize width0 height0 w1 = (w1, Normal ReturnUndefined).
Proof.
  intros Hw Hh w1. subst w1. apply resize_same.
  destruct (same_size width0 height0 (this w)) eqn:E.
  - rewrite resize_same by exact E. exact E.
  - rewrite resize_changed by exact E. unfold same_size. cbn.
    rewrite !strict_eq_ceil_refl by assumption. reflexivity.
Qed.

(** X5. A NaN or missing argument never matches the stored size: such a
    [resize] always counts as a change, stores NaN for that dimension and
    raises dirtyId and dirtySize, every time it is called. *)
Theorem resize_NaN_always_dirty (width0 height0 : jsval) (w : World) :
  ToNumber width0 = NaN ∨ ToNumber height0 = NaN →
  let f := this w in
  let w' := (resize width0 height0 w).1 in
  same_size width0 height0 f = false
  ∧ width (this w') = Math_ceil (ToNumber width0)
  ∧ height (this w') = Math_ceil (ToNumber height0)
  ∧ dirtyId (this w') = (dirtyId f + 1)%N
  ∧ dirtySize (this w') = (dirtySize f + 1)%N
  ∧ same_size width0 height0 (this w') = false.
Proof.
  intros HNaN f w'. subst f w'.
  assert (Hne : ∀ f, same_size width0 height0 f = false).
  { intros f. unfold same_size. apply andb_false_iff.
    destruct HNaN as [-> | ->]; [left | right]; reflexivity. }
  rewrite resize_changed by apply Hne. cbn.
  split; [apply Hne |]. repeat split. apply Hne.
Qed.

(** X6. [resize] writes the size and two counters and nothing else: on each
    of its paths (no change, complete, thrown) the surfaces, the flags,
    dirtyFormat, the cache and the runner are as before and no surface is
    created. *)
Theorem resize_writes_size_only (width0 height0 : jsval) (w : World) :
  let f := this w in
  let w' := (resize width0 height0 w).1 in
  colorTextures (this w') = colorTextures f
  ∧ depthTexture (this w') = depthTexture f
  ∧ stencil (this w') = stencil f
  ∧ depth (this w') = depth f
  ∧ dirtyFormat (this w') = dirtyFormat f
  ∧ glFramebuffers (this w') = glFramebuffers f
  ∧ disposeRunner (this w') = disposeRunner f
  ∧ allocated w' = allocated w.
Proof.
  cbv zeta. destruct (same_size width0 height0 (this w)) eqn:E.
  - rewrite resize_same by exact E. repeat split.
  - rewrite resize_changed by exact E. repeat split.
Qed.

(** ** Which calls leave the class *)

Lemma present_prefix_elem {A} (a : jsarray A) (x : A) :
  x ∈ present_prefix a → Some x ∈ a.
Proof.
  induction a as [| [y |] a IH]; cbn; intros H.
  - inversion H.
  - apply elem_of_cons in H as [-> | H]; [left | right; apply IH; exact H].
  - inversion H.
Qed.

Ltac in_log :=
  repeat match goal with
    | H : _ ∈ [] |- _ => apply elem_of_nil in H; destruct H
    | H : _ ∈ _ :: _ |- _ => apply elem_of_cons in H as [H | H]
    | H : @eq call _ _ |- _ => first [discriminate H | injection H as ? ? ?
                                         | injection H as ? ? | injection H as ?]
    end;
  subst.

(** X7. What one call adds to the log.  [destroy] is only ever called by
    [destroyDepthTexture], on the depth surface of that moment; [setSize]
    only by [resize], on surfaces the object holds; the runner only by
    [dispose], with [false]; a surface is only built by the two attach
    methods when none is passed.  So attaching never resizes or destroys
    anything, and a replaced surface is left alone. *)
Theorem step_calls (o : op) (w : World) :
  ∃ new : list call,
    calls (step o w) = calls w ++ new
    ∧ (∀ t, Destroy t ∈ new →
         o = DestroyDepthTexture ∧ depthTexture (this w) = Some t)
    ∧ (∀ t a b, SetSize t a b ∈ new →
         (∃ w0 h0, o = Resize w0 h0) ∧ attached (this w) t)
    ∧ (∀ r b, Run r b ∈ new →
         o = Dispose ∧ r = disposeRunner (this w) ∧ b = false)
    ∧ (∀ t res opts, NewBaseTexture t res opts ∈ new →
         o = AddDepthTexture None ∨ ∃ i, o = AddColorTexture i None).
Proof.
  method_paths o w; eexists; (split; [try reflexivity |]).
  all: try (symmetry; apply app_nil_r).
  (* addColorTexture *)
  - destruct t; repeat split; intros; in_log; eauto.
  (* addDepthTexture *)
  - repeat split; intros; in_log.
  - destruct t; repeat split; intros; in_log; eauto.
  (* the flags, the short-circuit resize *)
  - repeat split; intros; in_log.
  - repeat split; intros; in_log.
  - repeat split; intros; in_log.
  (* a resize that changes the size *)
  - assert (Hsize : ∀ c, c ∈ (setSize_call (Math_ceil (ToNumber w0))
                                 (Math_ceil (ToNumber h0))
                               <$> present_prefix (colorTextures (this w)))
                             ++ (if has_hole (colorTextures (this w)) then []
                                 else match depthTexture (this w) with
                                      | Some d =>
                                          [setSize_call
                                             (Math_ceil (ToNumber w0))
                                             (Math_ceil (ToNumber h0)) d]
                                      | None => []
                                      end) →
                      ∃ t a b, c = SetSize t a b ∧ attached (this w) t).
    { intros c [Hin | Hin]%elem_of_app.
      - apply list_elem_of_fmap in Hin as (t & -> & Hin).
        eexists _, _, _. split; [reflexivity |].
        left. apply present_prefix_elem. exact Hin.
      - destruct (has_hole _); [in_log |].
        destruct (depthTexture (this w)) as [d |] eqn:Ed; in_log.
        eexists _, _, _. split; [reflexivity |]. right. exact Ed. }
    repeat split; intros;
      match goal with
      | H : _ ∈ _ |- _ => apply Hsize in H as (? & ? & ? & Heq & Hatt)
      end;
      first [discriminate Heq | injection Heq as -> -> ->]; eauto.
  (* dispose *)
  - repeat split; intros; in_log; eauto.
  (* destroyDepthTexture *)
  - repeat split; intros; in_log; eauto.
  - repeat split; intros; in_log.
Qed.

(** ** Holes come from attaching past the end, and only from there *)

Lemma array_set_cons_0 {A} (v : A) (x : option A) (a : jsarray A) :
  array_set 0 v (x :: a) = Some v :: a.
Proof. unfold array_set. cbn. rewrite app_nil_r. reflexivity. Qed.

Lemma array_set_cons_S {A} (i : nat) (v : A) (x : option A) (a : jsarray A) :
  array_set (S i) v (x :: a) = x :: array_set i v a.
Proof. reflexivity. Qed.

Lemma array_set_nil_S {A} (i : nat) (v : A) :
  array_set (S i) v [] = None :: array_set i v [].
Proof. reflexivity. Qed.

Lemma array_set_dense {A} (v : A) (a : jsarray A) :
  ∀ i, has_hole a = false → i ≤ length a → has_hole (array_set i v a) = false.
Proof.
  induction a as [| [x |] a IH]; intros i Hd Hi; cbn in Hd, Hi.
  - replace i with 0 by lia. reflexivity.
  - destruct i as [| i].
    + rewrite array_set_cons_0. exact Hd.
    + rewrite array_set_cons_S. cbn. apply IH; [exact Hd | lia].
  - discriminate Hd.
Qed.

Lemma array_set_beyond {A} (v : A) (a : jsarray A) :
  ∀ i, length a < i → has_hole (array_set i v a) = true.
Proof.
  induction a as [| x a IH]; intros i Hi; cbn in Hi;
    (destruct i as [| i]; [lia |]).
  - rewrite array_set_nil_S. reflexivity.
  - rewrite array_set_cons_S. destruct x; cbn; [apply IH; lia | reflexivity].
Qed.

(** X8. An array without holes stays without holes as long as
    [addColorTexture] is given an index no greater than the current length
    (index 0, the default, always is).  On such an array a call returns
    normally, [resize] included; the one call that can still throw is
    [addDepthTexture] without a surface, when the depth resource refuses the
    size, and it then leaves the world as it was. *)
Theorem step_keeps_dense (o : op) (w : World) :
  has_hole (colorTextures (this w)) = false →
  (∀ i t, o = AddColorTexture i t →
          default 0 i ≤ length (colorTextures (this w))) →
  has_hole (colorTextures (this (step o w))) = false
  ∧ ((∃ r, (exec o w).2 = Normal r)
     ∨ (o = AddDepthTexture None
        ∧ resource_refused None (this w) = true
        ∧ exec o w = (w, Throw InvalidBufferSize))).
Proof.
  intros Hd Hi.
  assert (Hreturn : (∃ r, (exec o w).2 = Normal r)
                    ∨ (o = AddDepthTexture None
                       ∧ resource_refused None (this w) = true
                       ∧ exec o w = (w, Throw InvalidBufferSize))).
  { method_paths o w; rewrite ?Hd; try (left; eexists; reflexivity).
    destruct t; [discriminate Eres |]. right.
    split; [reflexivity |]. split; [exact Eres | reflexivity]. }
  split; [| exact Hreturn]. clear Hreturn.
  method_paths o w; try exact Hd.
  cbn. apply array_set_dense; [exact Hd |]. eapply Hi. reflexivity.
Qed.

(** X9. [addColorTexture] with an index greater than the current length
    leaves a hole behind. *)
Theorem add_beyond_end_makes_hole (index : option nat)
    (texture : option Texture) (w : World) :
  length (colorTextures (this w)) < default 0 index →
  has_hole (colorTextures (this (addColorTexture index texture w).1)) = true.
Proof.
  intros Hlt. rewrite addColorTexture_world. cbn.
  apply array_set_beyond. exact Hlt.
Qed.

(** ** What stays *)

Lemma array_get_set_is_Some {A} (i j : nat) (v : A) (a : jsarray A) :
  is_Some (array_get a j) → is_Some (array_get (array_set i v a) j).
Proof.
  intros H. destruct (decide (j = i)) as [-> | Hne].
  - rewrite array_get_set_eq. eauto.
  - rewrite array_get_set_ne by exact Hne. exact H.
Qed.

Lemma step_slots (o : op) (w : World) :
  length (colorTextures (this w)) ≤ length (colorTextures (this (step o w)))
  ∧ ∀ i, is_Some (array_get (colorTextures (this w)) i) →
         is_Some (array_get (colorTextures (this (step o w))) i).
Proof.
  method_paths o w; try (split; [reflexivity | intros ? H; exact H]).
  cbn. split.
  - rewrite array_set_length. lia.
  - intros j. apply array_get_set_is_Some.
Qed.

(** X10. No sequence of calls shortens [colorTextures] or empties a slot:
    a slot that holds a surface holds one ever after (possibly another). *)
Theorem colour_slots_persist (os : list op) (w : World) :
  length (colorTextures (this w))
  ≤ length (colorTextures (this (run os w)))
  ∧ ∀ i, is_Some (array_get (colorTextures (this w)) i) →
         is_Some (array_get (colorTextures (this (run os w))) i).
Proof.
  induction os as [| o os [IHl IHs]] using rev_ind.
  - split; [reflexivity | intros ? H; exact H].
  - rewrite run_snoc. destruct (step_slots o (run os w)) as [Hl Hs].
    split; [lia | intros i H; apply Hs, IHs, H].
Qed.

Lemma step_flags (o : op) (w : World) :
  depth (this (step o w)) = depth (this w) || is_EnableDepth o
  ∧ stencil (this (step o w)) = stencil (this w) || is_EnableStencil o
  ∧ glFramebuffers (this (step o w)) = glFramebuffers (this w)
  ∧ disposeRunner (this (step o w)) = disposeRunner (this w).
Proof.
  method_paths o w; cbn; rewrite ?orb_false_r, ?orb_true_r; repeat split.
Qed.

(** X11. After any sequence of calls, [depth] is set exactly when it was set
    before or [enableDepth] is among the calls, and likewise [stencil]:
    nothing clears a flag.  The class never writes [glFramebuffers] nor
    replaces [disposeRunner]. *)
Theorem flags_after_run (os : list op) (w : World) :
  depth (this (run os w)) = depth (this w) || existsb is_EnableDepth os
  ∧ stencil (this (run os w)) = stencil (this w) || existsb is_EnableStencil os
  ∧ glFramebuffers (this (run os w)) = glFramebuffers (this w)
  ∧ disposeRunner (this (run os w)) = disposeRunner (this w).
Proof.
  induction os as [| o os (IHd & IHs & IHg & IHr)] using rev_ind.
  - cbn. rewrite !orb_false_r. repeat split.
  - rewrite run_snoc, !existsb_app. cbn [existsb]. rewrite !orb_false_r.
    destruct (step_flags o (run os w)) as (-> & -> & -> & ->).
    rewrite IHd, IHs, IHg, IHr, !orb_assoc. repeat split.
Qed.

(** ** Disposal *)

(** X12. [dispose] has no latch: [n] calls in a row trigger the runner [n]
    times, each with [false], and leave the object as it was. *)
Theorem dispose_fires_each_time (n : nat) (w : World) :
  run (replicate n Dispose) w
  = mkWorld (this w)
      (calls w ++ replicate n (Run (disposeRunner (this w)) false))
      (allocated w).
Proof.
  revert w. induction n as [| n IH]; intros w.
  - cbn. rewrite app_nil_r, world_eta. reflexivity.
  - cbn [replicate]. change (run (Dispose :: replicate n Dispose) w)
      with (run (replicate n Dispose) (step Dispose w)).
    rewrite IH. unfold step. cbn [exec]. rewrite dispose_world.
    cbn [fst this calls allocated]. rewrite <- app_assoc. reflexivity.
Qed.

(** ** The primary colour surface *)

(** X13. The [colorTexture] getter reads slot 0: after [addColorTexture] at
    index 0 (or with the index omitted) it is the attached surface, after
    [addColorTexture] at any other index it is what it was before. *)
Theorem colorTexture_after_add (index : option nat)
    (texture : option Texture) (w : World) :
  let t := default (mkTexture (allocated w) (Fin 1)) texture in
  colorTexture (this (addColorTexture index texture w).1)
  = match default 0 index with
    | O => Some t
    | S _ => colorTexture (this w)
    end.
Proof.
  cbv zeta. rewrite addColorTexture_world. unfold colorTexture. cbn.
  destruct (default 0 index) as [| i].
  - apply array_get_set_eq.
  - apply array_get_set_ne. discriminate.
Qed.

(** ** Attaching, then dropping, a depth surface *)

(** X14. [destroyDepthTexture] destroys whatever depth surface is attached,
    a surface handed in by the caller included; the surface that
    [addDepthTexture] replaced gets no [destroy].  Together the two calls
    raise dirtyId and dirtyFormat by 2, and a second [destroyDepthTexture]
    changes nothing. *)
Theorem destroy_after_attach (t : Texture) (w : World) :
  let f := this w in
  let w1 := (addDepthTexture (Some t) w).1 in
  let w2 := (destroyDepthTexture w1).1 in
  calls w2 = calls w ++ [Destroy t]
  ∧ depthTexture (this w2) = None
  ∧ dirtyId (this w2) = (dirtyId f + 2)%N
  ∧ dirtyFormat (this w2) = (dirtyFormat f + 2)%N
  ∧ dirtySize (this w2) = dirtySize f
  ∧ destroyDepthTexture w2 = (w2, Normal ReturnUndefined).
Proof.
  cbv zeta. rewrite addDepthTexture_world. cbv zeta.
  rewrite destroyDepthTexture_world. cbn -[N.add]. rewrite app_nil_r.
  unfold incr. repeat split; lia.
Qed.

End Division.

(** * Closed instances

    The statements above at concrete objects, with [exact_div] for the
    division. *)

(** The walk-through of the specification: [new Framebuffer(0, 0)],
    [addColorTexture()], [resize(50.2, 60.1)], [resize(51, 61)]. *)
Example walk_through :
  let w0 := new_Framebuffer 0 (Num (Fin 0)) (Num (Fin 0)) in
  let w1 := step exact_div (AddColorTexture None None) w0 in
  let w2 := step exact_div (Resize (Num (Fin 50.2)) (Num (Fin 60.1))) w1 in
  let w3 := step exact_div (Resize (Num (Fin 51)) (Num (Fin 61))) w2 in
  let t := mkTexture 0 (Fin 1) in
  (width (this w0), height (this w0)) = (Fin 100, Fin 100)
  ∧ colorTexture (this w1) = Some t
  ∧ (dirtyId (this w1), dirtyFormat (this w1), dirtySize (this w1))
    = (1%N, 1%N, 0%N)
  ∧ (width (this w2), height (this w2)) = (Fin 51, Fin 61)
  ∧ (dirtyId (this w2), dirtyFormat (this w2), dirtySize (this w2))
    = (2%N, 1%N, 1%N)
  ∧ last (calls w2) = Some (SetSize t (Fin 51) (Fin 61))
  ∧ w3 = w2.
Proof. cbv zeta. repeat split. Qed.

(** C3 at an object with a colour and a depth surface, of size 100 by 100:
    [resize(99.5, 100)] changes nothing. *)
Lemma resize_same_size_noop_witness :
  let w := run exact_div [AddColorTexture None None; AddDepthTexture None]
             (new_Framebuffer 0 Undefined Undefined) in
  strict_eq (Math_ceil (Fin 99.5)) (width (this w)) = true
  ∧ strict_eq (Math_ceil (Fin 100)) (height (this w)) = true
  ∧ resize exact_div (Num (Fin 99.5)) (Num (Fin 100)) w
    = (w, Normal ReturnUndefined).
Proof.
  cbv zeta.
  split; [reflexivity |]. split; [reflexivity |].
  apply (resize_same_size_noop exact_div); reflexivity.
Defined.

(** C10 at a freshly built 100 by 100 object. *)
Lemma resize_zero_not_defaulted_witness :
  let w := new_Framebuffer 0 Undefined Undefined in
  let w' := (resize exact_div (Num (Fin 0)) (Num (Fin 0)) w).1 in
  strict_eq (Fin 0) (width (this w)) = false
  ∧ width (this w') = Fin 0
  ∧ height (this w') = Fin 0
  ∧ dirtyId (this w') = 1%N
  ∧ dirtySize (this w') = 1%N
  ∧ dirtyFormat (this w') = 0%N
  ∧ width (constructor (Num (Fin 0)) (Num (Fin 0))) = Fin 100
  ∧ height (constructor (Num (Fin 0)) (Num (Fin 0))) = Fin 100.
Proof.
  cbv zeta.
  split; [reflexivity |].
  apply (resize_zero_not_defaulted exact_div
           (new_Framebuffer 0 Undefined Undefined)).
  left. reflexivity.
Defined.

(** C4 at the object of the claim: after [addColorTexture(2)] on a new
    framebuffer, slots 0 and 1 are holes and [resize(200, 200)] throws
    without a single [setSize]. *)
Lemma resize_throws_on_hole_witness :
  let w := step exact_div (AddColorTexture (Some 2) None)
             (new_Framebuffer 0 Undefined Undefined) in
  let r := resize exact_div (Num (Fin 200)) (Num (Fin 200)) w in
  colorTextures (this w) = [None; None; Some (mkTexture 0 (Fin 1))]
  ∧ has_hole (colorTextures (this w)) = true
  ∧ same_size (Num (Fin 200)) (Num (Fin 200)) (this w) = false
  ∧ r.2 = Throw (CannotReadProperty "resolution")
  ∧ calls r.1 = calls w ++ []
  ∧ width (this r.1) = Fin 200
  ∧ height (this r.1) = Fin 200
  ∧ dirtyId (this r.1) = 2%N
  ∧ dirtySize (this r.1) = 1%N.
Proof.
  cbv zeta.
  split; [reflexivity |]. split; [reflexivity |]. split; [reflexivity |].
  apply (resize_throws_on_hole exact_div (Num (Fin 200)) (Num (Fin 200))
           (step exact_div (AddColorTexture (Some 2) None)
              (new_Framebuffer 0 Undefined Undefined)));
    reflexivity.
Defined.

(** C5, the claim as written fails: the constructor keeps a negative
    argument (and turns -1/2 into a zero), and [resize] keeps zero and
    negative arguments. *)
Lemma size_not_always_positive :
  let built := constructor (Num (Fin (-5))) (Num (Fin (-1 # 2))) in
  let resized :=
    this (run exact_div [Resize (Num (Fin 0)) (Num (Fin (-3)))]
            (new_Framebuffer 0 Undefined Undefined)) in
  (width built = Fin (-5) ∧ ¬ positive_integer (width built))
  ∧ (height built = NegZero ∧ ¬ positive_integer (height built))
  ∧ (width resized = Fin 0 ∧ ¬ positive_integer (width resized))
  ∧ (height resized = Fin (-3) ∧ ¬ positive_integer (height resized)).
Proof.
  cbv zeta.
  repeat split; try reflexivity;
    intros (z & Hz & Heq); vm_compute in Heq;
    first [discriminate Heq | injection Heq as Heq; lia].
Qed.

(** C5 as amended, at [new Framebuffer(undefined, 50.2)] followed by
    [addColorTexture()], [resize(50.2, 60.1)] and [enableDepth()]. *)
Lemma size_positive_on_positive_arguments_witness :
  let os := [AddColorTexture None None;
             Resize (Num (Fin 50.2)) (Num (Fin 60.1));
             EnableDepth] in
  let f := this (run exact_div os
                   (new_Framebuffer 0 Undefined (Num (Fin 50.2)))) in
  positive_integer (width f) ∧ positive_integer (height f).
Proof.
  cbv zeta.
  apply (size_positive_on_positive_arguments exact_div 0 Undefined
           (Num (Fin 50.2))).
  - left. reflexivity.
  - right. exists 50.2%Q. split; reflexivity.
  - repeat constructor; eexists; split; reflexivity.
Defined.

(** X4 at a 100 by 100 object with a colour surface: [resize(50.2, 60.1)]
    twice. *)
Lemma resize_twice_noop_witness :
  let w := step exact_div (AddColorTexture None None)
             (new_Framebuffer 0 Undefined Undefined) in
  let w1 := (resize exact_div (Num (Fin 50.2)) (Num (Fin 60.1)) w).1 in
  width (this w1) = Fin 51
  ∧ dirtySize (this w1) = 1%N
  ∧ resize exact_div (Num (Fin 50.2)) (Num (Fin 60.1)) w1
    = (w1, Normal ReturnUndefined).
Proof.
  cbv zeta. split; [reflexivity |]. split; [reflexivity |].
  apply (resize_twice_noop exact_div (Num (Fin 50.2)) (Num (Fin 60.1)));
    discriminate.
Defined.

(** X5 at a new object: [resize()] with no argument, twice. *)
Lemma resize_NaN_always_dirty_witness :
  let w := new_Framebuffer 0 Undefined Undefined in
  let w1 := (resize exact_div Undefined Undefined w).1 in
  let w2 := (resize exact_div Undefined Undefined w1).1 in
  (width (this w1), height (this w1)) = (NaN, NaN)
  ∧ (dirtyId (this w1), dirtySize (this w1)) = (1%N, 1%N)
  ∧ same_size Undefined Undefined (this w1) = false
  ∧ width (this w2) = Math_ceil (ToNumber Undefined)
  ∧ height (this w2) = Math_ceil (ToNumber Undefined)
  ∧ dirtyId (this w2) = (dirtyId (this w1) + 1)%N
  ∧ dirtySize (this w2) = (dirtySize (this w1) + 1)%N
  ∧ same_size Undefined Undefined (this w2) = false.
Proof.
  cbv zeta. split; [reflexivity |]. split; [reflexivity |].
  apply (resize_NaN_always_dirty exact_div Undefined Undefined
           (resize exact_div Undefined Undefined
              (new_Framebuffer 0 Undefined Undefined)).1).
  left. reflexivity.
Defined.

(** X8 at an object holding one colour surface: attaching a second one at
    index 1, the current length. *)
Lemma step_keeps_dense_witness :
  let w := step exact_div (AddColorTexture None None)
             (new_Framebuffer 0 Undefined Undefined) in
  let o := AddColorTexture (Some 1) None in
  colorTextures (this (step exact_div o w))
  = [Some (mkTexture 0 (Fin 1)); Some (mkTexture 1 (Fin 1))]
  ∧ has_hole (colorTextures (this (step exact_div o w))) = false
  ∧ ((∃ r, (exec exact_div o w).2 = Normal r)
     ∨ (o = AddDepthTexture None
        ∧ resource_refused None (this w) = true
        ∧ exec exact_div o w = (w, Throw InvalidBufferSize))).
Proof.
  cbv zeta. split; [reflexivity |].
  apply (step_keeps_dense exact_div).
  - reflexivity.
  - intros i t Heq. injection Heq as Hi _. subst i. vm_compute. lia.
Defined.

(** X9 at a new object: [addColorTexture(1)]. *)
Lemma add_beyond_end_makes_hole_witness :
  let w := new_Framebuffer 0 Undefined Undefined in
  colorTextures (this (addColorTexture (Some 1) None w).1)
  = [None; Some (mkTexture 0 (Fin 1))]
  ∧ has_hole (colorTextures (this (addColorTexture (Some 1) None w).1)) = true.
Proof.
  cbv zeta. split; [reflexivity |].
  apply add_beyond_end_makes_hole. vm_compute. lia.
Defined.

(** X15 at an object with two colour surfaces of resolution 2 and 1 and a
    depth surface of resolution 4: [resize(50.2, 60.1)]. *)
Lemma resize_without_holes_witness :
  let a := mkTexture 5 (Fin 2) in
  let b := mkTexture 6 (Fin 1) in
  let d := mkTexture 7 (Fin 4) in
  let w := run exact_div
             [AddColorTexture None (Some a); AddColorTexture (Some 1) (Some b);
              AddDepthTexture (Some d)]
             (new_Framebuffer 8 Undefined Undefined) in
  let r := resize exact_div (Num (Fin 50.2)) (Num (Fin 60.1)) w in
  r.2 = Normal ReturnUndefined
  ∧ (width (this r.1), height (this r.1)) = (Fin 51, Fin 61)
  ∧ (dirtyId (this r.1), dirtyFormat (this r.1), dirtySize (this r.1))
    = (4%N, 3%N, 1%N)
  ∧ calls r.1
    = [SetSize a (Fin (51 # 2)) (Fin (61 # 2));
       SetSize b (Fin 51) (Fin 61);
       SetSize d (Fin (51 # 4)) (Fin (61 # 4))].
Proof.
  cbv zeta.
  pose proof (resize_without_holes exact_div (Num (Fin 50.2)) (Num (Fin 60.1))
                (run exact_div
                   [AddColorTexture None (Some (mkTexture 5 (Fin 2)));
                    AddColorTexture (Some 1) (Some (mkTexture 6 (Fin 1)));
                    AddDepthTexture (Some (mkTexture 7 (Fin 4)))]
                   (new_Framebuffer 8 Undefined Undefined))
                eq_refl eq_refl) as (Hr & Hw & Hh & Hi & Hs & Hf & _ & Hc).
  split; [exact Hr |].
  split; [rewrite Hw, Hh; reflexivity |].
  split; [rewrite Hi, Hs, Hf; reflexivity |].
  rewrite Hc. reflexivity.
Defined.

(** C7, the claim as written fails: on an object of size 0 by 0 (after
    [resize(0, 0)]), or built with a width of -1/2 (stored as the negative
    zero), [addDepthTexture()] throws; no counter moves and no depth surface
    is attached. *)
Lemma addDepthTexture_throws_on_zero_size :
  let w := step exact_div (Resize (Num (Fin 0)) (Num (Fin 0)))
             (new_Framebuffer 0 (Num (Fin 100)) (Num (Fin 100))) in
  let w' := new_Framebuffer 0 (Num (Fin (-1 # 2))) Undefined in
  ((width (this w), height (this w)) = (Fin 0, Fin 0)
   ∧ addDepthTexture None w = (w, Throw InvalidBufferSize)
   ∧ (addDepthTexture None w).2 ≠ Normal ReturnThis
   ∧ dirtyId (this (addDepthTexture None w).1) ≠ (dirtyId (this w) + 1)%N
   ∧ dirtyFormat (this (addDepthTexture None w).1)
     ≠ (dirtyFormat (this w) + 1)%N
   ∧ depthTexture (this (addDepthTexture None w).1) = None)
  ∧ ((width (this w'), height (this w')) = (NegZero, Fin 100)
     ∧ addDepthTexture None w' = (w', Throw InvalidBufferSize)).
Proof.
  cbv zeta. repeat split; discriminate.
Qed.
